(** * Bootstrap wiring of the NestJS application (src/main.ts) and the
      [verification] entity.

    The entry point is a linear start-up sequence: it reads configuration,
    creates the application, performs an ordered series of calls on it and
    finally listens.  It is embedded as a program in a small state-and-error
    monad: the state is the ordered log of the calls made so far, the error
    is the exception thrown by [getOrThrow] on a missing configuration key
    (the calls made before the throw stay made).  A call into the framework
    is logged with its arguments and taken to go through: what the framework
    itself may throw from inside a call (a port it cannot bind, a plugin it
    refuses) is not part of the embedding, so [inl] is always a missing
    path. *)

From Stdlib Require Import String Ascii ZArith List Bool.
From stdpp Require Import base option list strings gmap.
Import ListNotations.

Local Open Scope string_scope.
Local Open Scope list_scope.
Local Open Scope Z_scope.

(** ** Configuration *)

(** The string enum [Environment] of constants/app.constant, through the
    keys of [envToLogger] (main.ts, lines 34-40). *)
Module Environment.
Inductive t : Set := local | development | production | staging | test.

Definition value (e : t) : string :=
  match e with
  | local => "local"
  | development => "development"
  | production => "production"
  | staging => "staging"
  | test => "test"
  end.
End Environment.

#[global] Instance Environment_eq_dec : EqDecision Environment.t.
Proof. solve_decision. Defined.

(** The fields of the object returned by [getAppConfig()] that main.ts reads. *)
Record AppConfig : Set := {
  isWorker : bool;
  appLogging : bool;
  nodeEnv : Environment.t;
  isHttps : bool
}.

(** Values held by the [ConfigService]. *)
Inductive ConfigValue : Set :=
| VString (s : string)
| VNumber (n : Z)
| VBoolean (b : bool).

#[global] Instance ConfigValue_eq_dec : EqDecision ConfigValue.
Proof. solve_decision. Defined.

(** JavaScript [a !== b] on configuration values. *)
Definition strict_neq (a b : ConfigValue) : bool := bool_decide (a ≠ b).

(** The store behind [ConfigService<GlobalConfig>], by property path. *)
Abbreviation GlobalConfig := (gmap string ConfigValue).

(** ** Objects handed to the framework *)

(** What [consoleLoggingConfig()] returns: a logger settings object, kept as
    its list of settings. *)
Definition LoggingConfig : Set := list (string * string).

(** The [logger] option of the Fastify adapter: a boolean or a settings
    object. *)
Inductive LoggerOption : Set :=
| logger_flag (enabled : bool)
| logger_settings (c : LoggingConfig).

Record FastifyAdapterOptions : Set := {
  logger : LoggerOption;
  trustProxy : bool
}.

Inductive AppModule : Set := AppModule_worker | AppModule_main.

Record ValidationError : Set := {
  property : string;
  constraints : list (string * string)
}.

Definition HttpStatus_UNPROCESSABLE_ENTITY : Z := 422.

(** The body a Nest [HttpException] built from an array answers with. *)
Record HttpResponseBody : Set := {
  statusCode : Z;
  message : list ValidationError;
  error : string
}.

Inductive HttpException : Set :=
| UnprocessableEntityException (objectOrError : list ValidationError).

Definition getStatus (e : HttpException) : Z :=
  match e with
  | UnprocessableEntityException _ => HttpStatus_UNPROCESSABLE_ENTITY
  end.

Definition getResponse (e : HttpException) : HttpResponseBody :=
  match e with
  | UnprocessableEntityException errors =>
      {| statusCode := HttpStatus_UNPROCESSABLE_ENTITY;
         message := errors;
         error := "Unprocessable Entity" |}
  end.

(** Options of [new ValidationPipe({...})] (main.ts, lines 68-76). *)
Record ValidationPipeOptions : Set := {
  transform : bool;
  whitelist : bool;
  forbidNonWhitelisted : bool;
  errorHttpStatusCode : Z;
  exceptionFactory : list ValidationError -> HttpException
}.

Inductive VersioningType : Set := VersioningType_URI.

Record CorsOptions : Set := {
  origin : ConfigValue;
  methods : list string;
  allowedHeaders : list string;
  credentials : bool
}.

Record SentryOptions : Set := {
  dsn : ConfigValue;
  tracesSampleRate : Z;
  environment : ConfigValue
}.

Inductive Interceptor : Set :=
| ClassSerializerInterceptor
| SentryInterceptor.

Inductive WebSocketAdapter : Set := RedisIoAdapter.

Record ListenOptions : Set := {
  port : ConfigValue;
  host : string
}.

(** ** Requests seen by the [onRequest] hook *)

Record Request : Set := {
  url : string;
  headers : list (string * string)
}.

(** What is observable of the handling of one request: whether a reply has
    been sent, and the ordered trace of what was run on it. *)
Inductive Event : Set :=
| ev_bullBoardAuth (req : Request)
| ev_rejected (req : Request)
| ev_routed (req : Request).

Record Exchange : Set := {
  reply_sent : bool;
  trace : list Event
}.

Definition fresh_exchange : Exchange := {| reply_sent := false; trace := [] |}.

Definition record_event (e : Event) (x : Exchange) : Exchange :=
  {| reply_sent := reply_sent x; trace := trace x ++ [e] |}.

Definition Hook : Set := Request -> Exchange -> Exchange.

(** ** The calls of the start-up sequence *)

Inductive Call : Set :=
| NestFactory_create (module : AppModule) (adapter : FastifyAdapterOptions)
    (bufferLogs : bool)
| register_fastifyCookie (secret : ConfigValue)
| setGlobalPrefix (prefix : string)
| useGlobalPipes (pipe : ValidationPipeOptions)
| enableVersioning (type : VersioningType)
| enableCors (options : CorsOptions)
| use_helmet
| useGlobalInterceptors (i : Interceptor)
| setupSwagger
| Sentry_init (options : SentryOptions)
| setupGracefulShutdown
| useWebSocketAdapter (a : WebSocketAdapter)
| addHook (name : string) (hook : Hook)
| listen (options : ListenOptions)
| console_info (text : string).

(** The application object, as the ordered log of calls made on it. *)
Definition App : Set := list Call.

Inductive BootError : Set :=
| TypeError_missing_key (propertyPath : string).

(** ** The start-up monad *)

Definition Boot (A : Type) : Type := App -> (BootError + A) * App.

#[global] Instance boot_ret : MRet Boot := fun A a app => (inr a, app).

#[global] Instance boot_bind : MBind Boot := fun A B k m app =>
  match m app with
  | (inl e, app') => (inl e, app')
  | (inr a, app') => k a app'
  end.

Definition call (c : Call) : Boot unit := fun app => (inr tt, app ++ [c]).

(** [configService.getOrThrow(path, { infer: true })]: the value, or a throw
    when the path has none. *)
Definition getOrThrow (configService : GlobalConfig) (propertyPath : string)
  : Boot ConfigValue :=
  fun app =>
    match configService !! propertyPath with
    | Some v => (inr v, app)
    | None => (inl (TypeError_missing_key propertyPath), app)
    end.

Definition when (b : bool) (m : Boot unit) : Boot unit :=
  if b then m else mret tt.

Definition run {A} (m : Boot A) : (BootError + A) * App := m [].

(** ** main.ts *)

Section Main.

(** Parts of the repository that main.ts imports and that lie outside the
    files at hand: the value of [consoleLoggingConfig()], the constant
    [BULL_BOARD_PATH], and the address [app.getUrl()] answers once the
    application listens. *)
Variable consoleLoggingConfig : LoggingConfig.
Variable BULL_BOARD_PATH : string.
Variable getUrl : ListenOptions -> string.

(** The credential check the dashboard gate performs on a request. *)
Variable valid_credentials : Request -> bool.

(** main.ts, lines 34-40. *)
Definition envToLogger (e : Environment.t) : LoggerOption :=
  match e with
  | Environment.local => logger_settings consoleLoggingConfig
  | Environment.development => logger_settings consoleLoggingConfig
  | Environment.production => logger_flag true
  | Environment.staging => logger_flag true
  | Environment.test => logger_flag false
  end.

(** Modelled from the spec: [bullBoardAuthMiddleware] of
    middlewares/bull-board-auth.middleware is not among the files at hand.
    The spec calls it a custom authentication check that gates the
    dashboard path and rejects a request without valid credentials: the
    check is run on the request, and a request that fails it is answered
    with a rejection on the spot. *)
Definition bullBoardAuthMiddleware (req : Request) (reply : Exchange)
  : Exchange :=
  let checked := record_event (ev_bullBoardAuth req) reply in
  if valid_credentials req then checked
  else {| reply_sent := true;
          trace := trace checked ++ [ev_rejected req] |}.

(** main.ts, lines 123-128: the [onRequest] hook. *)
Definition onRequest_hook : Hook := fun req reply =>
  if String.prefix ("/api" +:+ BULL_BOARD_PATH) (url req)
  then bullBoardAuthMiddleware req reply
  else reply.

Definition ESC : string := String (ascii_of_nat 27) EmptyString.

(** main.ts, lines 33-144. *)
Definition bootstrap (appConfig : AppConfig) (configService : GlobalConfig)
  : Boot unit :=
  let isWorker := isWorker appConfig in
  call (NestFactory_create
          (if isWorker then AppModule_worker else AppModule_main)
          {| logger := if appLogging appConfig
                       then envToLogger (nodeEnv appConfig)
                       else logger_flag false;
             trustProxy := isHttps appConfig |}
          true) ;;
  secret ← getOrThrow configService "auth.authSecret";
  call (register_fastifyCookie secret) ;;
  call (setGlobalPrefix "api") ;;
  call (useGlobalPipes
          {| transform := true;
             whitelist := true;
             forbidNonWhitelisted := true;
             errorHttpStatusCode := HttpStatus_UNPROCESSABLE_ENTITY;
             exceptionFactory :=
               fun errors => UnprocessableEntityException errors |}) ;;
  call (enableVersioning VersioningType_URI) ;;
  corsOrigin ← getOrThrow configService "app.corsOrigin";
  call (enableCors
          {| origin := corsOrigin;
             methods :=
               ["GET"; "PATCH"; "POST"; "PUT"; "DELETE"; "OPTIONS"; "HEAD"];
             allowedHeaders :=
               ["Content-Type"; "Authorization"; "X-Requested-With";
                "Accept"];
             credentials := true |}) ;;
  call use_helmet ;;
  call (useGlobalInterceptors ClassSerializerInterceptor) ;;
  env ← getOrThrow configService "app.nodeEnv";
  call setupSwagger ;;
  sentryDsn ← getOrThrow configService "sentry.dsn";
  sentryEnv ← getOrThrow configService "app.nodeEnv";
  call (Sentry_init {| dsn := sentryDsn;
                       tracesSampleRate := 1;
                       environment := sentryEnv |}) ;;
  call (useGlobalInterceptors SentryInterceptor) ;;
  when (strict_neq env (VString "local")) (call setupGracefulShutdown) ;;
  when (negb isWorker) (call (useWebSocketAdapter RedisIoAdapter)) ;;
  call (addHook "onRequest" onRequest_hook) ;;
  listenPort ← (if isWorker
                then getOrThrow configService "app.workerPort"
                else getOrThrow configService "app.port");
  let listenOptions := {| port := listenPort; host := "0.0.0.0" |} in
  call (listen listenOptions) ;;
  let httpUrl := getUrl listenOptions in
  call (console_info
          (ESC +:+ "[3" +:+ (if isWorker then "3" else "4") +:+ "m"
           +:+ (if isWorker then "Worker " else "")
           +:+ "Server running at " +:+ httpUrl)).

(** The calls [bootstrap] has made by the time it returns or throws. *)
Definition calls_made (appConfig : AppConfig) (configService : GlobalConfig)
  : App :=
  snd (run (bootstrap appConfig configService)).

(** The application [bootstrap] returns, or the exception it throws. *)
Definition started (appConfig : AppConfig) (configService : GlobalConfig)
  : BootError + App :=
  match run (bootstrap appConfig configService) with
  | (inl e, _) => inl e
  | (inr _, app) => inr app
  end.

End Main.

(** ** Reading the application object back *)

Definition created_adapters (app : App) : list FastifyAdapterOptions :=
  omap (fun c => match c with
                 | NestFactory_create _ adapter _ => Some adapter
                 | _ => None
                 end) app.

Definition globalPipes (app : App) : list ValidationPipeOptions :=
  omap (fun c => match c with useGlobalPipes p => Some p | _ => None end) app.

Definition globalInterceptors (app : App) : list Interceptor :=
  omap (fun c => match c with
                 | useGlobalInterceptors i => Some i
                 | _ => None
                 end) app.

Definition cors_enabled (app : App) : list CorsOptions :=
  omap (fun c => match c with enableCors o => Some o | _ => None end) app.

Definition sentry_inits (app : App) : list SentryOptions :=
  omap (fun c => match c with Sentry_init o => Some o | _ => None end) app.

Definition listening (app : App) : list ListenOptions :=
  omap (fun c => match c with listen o => Some o | _ => None end) app.

Definition onRequest_hooks (app : App) : list Hook :=
  omap (fun c => match c with
                 | addHook name h =>
                     if String.eqb name "onRequest" then Some h else None
                 | _ => None
                 end) app.

Definition is_setupGracefulShutdown (c : Call) : bool :=
  match c with setupGracefulShutdown => true | _ => false end.

Definition is_useWebSocketAdapter (c : Call) : bool :=
  match c with useWebSocketAdapter _ => true | _ => false end.

(** The cross-cutting concerns of an application: its calls without their
    arguments, in order. *)
Inductive Concern : Set :=
| concern_create | concern_cookie | concern_prefix | concern_validation
| concern_versioning | concern_cors | concern_security_headers
| concern_interceptor (i : Interceptor) | concern_swagger
| concern_error_tracking | concern_graceful_shutdown
| concern_websocket_adapter | concern_hook (name : string)
| concern_listen | concern_console.

#[global] Instance Interceptor_eq_dec : EqDecision Interceptor.
Proof. solve_decision. Defined.

#[global] Instance Concern_eq_dec : EqDecision Concern.
Proof. solve_decision. Defined.

Definition concern_of (c : Call) : Concern :=
  match c with
  | NestFactory_create _ _ _ => concern_create
  | register_fastifyCookie _ => concern_cookie
  | setGlobalPrefix _ => concern_prefix
  | useGlobalPipes _ => concern_validation
  | enableVersioning _ => concern_versioning
  | enableCors _ => concern_cors
  | use_helmet => concern_security_headers
  | useGlobalInterceptors i => concern_interceptor i
  | setupSwagger => concern_swagger
  | Sentry_init _ => concern_error_tracking
  | setupGracefulShutdown => concern_graceful_shutdown
  | useWebSocketAdapter _ => concern_websocket_adapter
  | addHook name _ => concern_hook name
  | listen _ => concern_listen
  | console_info _ => concern_console
  end.

Definition concerns (app : App) : list Concern := map concern_of app.

(** ** Serving a request: the [onRequest] stage

    Fastify runs the [onRequest] hooks in the order they were added, before
    routing; once a hook has sent the reply the rest of the life cycle is
    skipped.  [route] stands for everything after the hooks. *)

Fixpoint run_hooks (hooks : list Hook) (req : Request) (reply : Exchange)
  : Exchange :=
  match hooks with
  | [] => reply
  | h :: rest =>
      if reply_sent reply then reply else run_hooks rest req (h req reply)
  end.

Definition handle_request (route : Hook) (app : App) (req : Request)
  : Exchange :=
  let reply := run_hooks (onRequest_hooks app) req fresh_exchange in
  if reply_sent reply then reply
  else route req (record_event (ev_routed req) reply).

(** ** The global validation pipe at work

    [ValidationPipe] and the validator it drives belong to the framework
    (@nestjs/common, class-validator); what follows is their contract for
    the options main.ts passes: the whitelist pass reports every property of
    the body that the DTO does not declare when [forbidNonWhitelisted] is
    set, each declared property is checked against its constraints, and a
    non-empty list of errors is thrown through [exceptionFactory]. *)

#[warnings="-register-all"] Inductive JsValue : Set :=
| JNull
| JBoolean (b : bool)
| JNumber (n : Z)
| JString (s : string)
| JArray (items : list JsValue)
| JObject (fields : list (string * JsValue)).

Definition Body : Set := list (string * JsValue).

(** A DTO class: its declared properties, each with the check its
    decorators amount to (the violated constraints of a value, or of a
    missing one). *)
Definition Dto : Set :=
  list (string * (option JsValue -> list (string * string))).

Fixpoint body_get (name : string) (body : Body) : option JsValue :=
  match body with
  | [] => None
  | (k, v) :: rest => if String.eqb k name then Some v else body_get name rest
  end.

Definition declares (dto : Dto) (name : string) : bool :=
  existsb (fun p => String.eqb (fst p) name) dto.

Definition notAllowedProperties (dto : Dto) (body : Body) : list string :=
  List.filter (fun k => negb (declares dto k)) (map fst body).

Definition whitelist_errors (dto : Dto) (body : Body) : list ValidationError :=
  map (fun name =>
         {| property := name;
            constraints :=
              [("whitelistValidation",
                "property " +:+ name +:+ " should not exist")] |})
      (notAllowedProperties dto body).

Definition strip (dto : Dto) (body : Body) : Body :=
  List.filter (fun kv => declares dto (fst kv)) body.

Definition property_errors (dto : Dto) (body : Body) : list ValidationError :=
  omap (fun p =>
          match snd p (body_get (fst p) body) with
          | [] => None
          | violated => Some {| property := fst p; constraints := violated |}
          end) dto.

Definition validate (o : ValidationPipeOptions) (dto : Dto) (body : Body)
  : list ValidationError :=
  (if whitelist o && forbidNonWhitelisted o
   then whitelist_errors dto body else [])
  ++ property_errors dto body.

Definition ValidationPipe_transform (o : ValidationPipeOptions) (dto : Dto)
    (body : Body) : HttpException + Body :=
  match validate o dto body with
  | [] => inr (if whitelist o then strip dto body else body)
  | errors => inl (exceptionFactory o errors)
  end.

(** The body has a field the DTO does not declare. *)
Definition has_unexpected_field (dto : Dto) (body : Body) : Prop :=
  exists name, In name (map fst body) /\ declares dto name = false.

(** The body has a declared field whose value violates a constraint. *)
Definition has_malformed_field (dto : Dto) (body : Body) : Prop :=
  exists name check v,
    In (name, check) dto /\ body_get name body = Some v
    /\ check (Some v) <> [].

(** ** The [verification] entity *)

Inductive TsType : Set := ts_string | ts_number | ts_boolean | ts_Date.

(** An options object literal, by key. *)
Definition OptionsLiteral : Set := list (string * JsValue).

Inductive PropertyDecorator : Set :=
| Column (options : OptionsLiteral).

Inductive ClassDecorator : Set :=
| Entity (name : string).

Record PropertyDeclaration : Set := {
  property_name : string;
  property_type : TsType;
  property_decorators : list PropertyDecorator
}.

Record ClassDeclaration : Set := {
  class_name : string;
  class_extends : option string;
  class_decorators : list ClassDecorator;
  class_properties : list PropertyDeclaration;
  class_methods : list string
}.

(** The entity file, lines 5-15. *)
Definition VerificationEntity : ClassDeclaration :=
  {| class_name := "VerificationEntity";
     class_extends := Some "BaseModel";
     class_decorators := [Entity "verification"];
     class_properties :=
       [ {| property_name := "identifier"; property_type := ts_string;
            property_decorators := [Column []] |};
         {| property_name := "value"; property_type := ts_string;
            property_decorators := [Column []] |};
         {| property_name := "expiresAt"; property_type := ts_Date;
            property_decorators :=
              [Column [("type", JString "timestamp")]] |} ];
     class_methods := [] |}.

(** The classes the entity file exports. *)
Definition entity_file : list ClassDeclaration := [VerificationEntity].

(** What the decorators register: the table of a class and its columns. *)
Record ColumnMetadata : Set := {
  column_name : string;
  column_tsType : TsType;
  column_options : OptionsLiteral
}.

Definition tables (c : ClassDeclaration) : list string :=
  map (fun d => match d with Entity name => name end) (class_decorators c).

Definition declared_columns (c : ClassDeclaration) : list ColumnMetadata :=
  flat_map (fun p =>
              map (fun d => match d with
                            | Column options =>
                                {| column_name := property_name p;
                                   column_tsType := property_type p;
                                   column_options := options |}
                            end) (property_decorators p))
           (class_properties c).

(** The columns of the table: those of the parent class first. *)
Definition table_columns (inherited : list ColumnMetadata)
    (c : ClassDeclaration) : list ColumnMetadata :=
  match class_extends c with
  | Some _ => inherited ++ declared_columns c
  | None => declared_columns c
  end.

Fixpoint option_get (key : string) (o : OptionsLiteral) : option JsValue :=
  match o with
  | [] => None
  | (k, v) :: rest => if String.eqb k key then Some v else option_get key rest
  end.

(** The database type a column asks for. *)
Definition column_type (c : ColumnMetadata) : option JsValue :=
  option_get "type" (column_options c).

(** Whether a column is declared unique. *)
Definition column_unique (c : ColumnMetadata) : bool :=
  match option_get "unique" (column_options c) with
  | Some (JBoolean true) => true
  | _ => false
  end.

(** ** Configurations

    The property paths [bootstrap] reads with [getOrThrow]. *)
Definition config_complete (appConfig : AppConfig) (configService : GlobalConfig)
  : Prop :=
  is_Some (configService !! "auth.authSecret")
  /\ is_Some (configService !! "app.corsOrigin")
  /\ is_Some (configService !! "app.nodeEnv")
  /\ is_Some (configService !! "sentry.dsn")
  /\ is_Some (configService !!
               (if isWorker appConfig then "app.workerPort" else "app.port")).

(** A configuration for each environment mode, and the two process roles. *)
Definition sample_config (e : Environment.t) : GlobalConfig :=
  list_to_map
    [("auth.authSecret", VString "s3cret");
     ("app.corsOrigin", VString "https://example.org");
     ("app.nodeEnv", VString (Environment.value e));
     ("sentry.dsn", VString "https://key@sentry.example/1");
     ("app.port", VNumber 3000);
     ("app.workerPort", VNumber 3001)].

Definition main_appConfig : AppConfig :=
  {| isWorker := false; appLogging := true;
     nodeEnv := Environment.production; isHttps := true |}.

Definition worker_appConfig : AppConfig :=
  {| isWorker := true; appLogging := true;
     nodeEnv := Environment.production; isHttps := true |}.

Definition sample_consoleLoggingConfig : LoggingConfig := [("level", "debug")].

Definition sample_BULL_BOARD_PATH : string := "/queues".

Definition sample_getUrl (o : ListenOptions) : string :=
  "http://" +:+ host o.

(** A credential check: an [authorization] header with a fixed token. *)
Definition sample_valid_credentials (req : Request) : bool :=
  existsb (fun h => String.eqb (fst h) "authorization"
                    && String.eqb (snd h) "Basic YWRtaW46YWRtaW4=")
          (headers req).

Definition sample_started (appConfig : AppConfig) (e : Environment.t)
  : BootError + App :=
  started sample_consoleLoggingConfig sample_BULL_BOARD_PATH sample_getUrl
    sample_valid_credentials appConfig (sample_config e).

(** A DTO with one declared property, [email], which must be a string. *)
Definition sample_dto : Dto :=
  [("email", fun v => match v with
                      | Some (JString _) => []
                      | _ => [("isString", "email must be a string")]
                      end)].

(** A body with a field [sample_dto] does not declare. *)
Definition sample_body : Body :=
  [("email", JString "a@example.org"); ("admin", JBoolean true)].

(** A request for the dashboard with no credentials, and one for a route of
    the API proper. *)
Definition dashboard_request : Request :=
  {| url := "/api/queues/queue/mail"; headers := [] |}.

Definition users_request : Request :=
  {| url := "/api/v1/users"; headers := [] |}.

(** A configuration that lacks the DSN of the monitoring service. *)
Definition config_without_dsn : GlobalConfig :=
  delete "sentry.dsn" (sample_config Environment.production).

(** The log of a start-up that read [secret], [corsOrigin], [env], [sentryDsn]
    and [listenPort] from the configuration: the normal form of
    [bootstrap]. *)
Definition wiring (consoleLoggingConfig : LoggingConfig)
    (BULL_BOARD_PATH : string) (getUrl : ListenOptions -> string)
    (valid_credentials : Request -> bool) (appConfig : AppConfig)
    (secret corsOrigin env sentryDsn listenPort : ConfigValue) : App :=
  [ NestFactory_create
      (if isWorker appConfig then AppModule_worker else AppModule_main)
      {| logger := if appLogging appConfig
                   then envToLogger consoleLoggingConfig (nodeEnv appConfig)
                   else logger_flag false;
         trustProxy := isHttps appConfig |}
      true;
    register_fastifyCookie secret;
    setGlobalPrefix "api";
    useGlobalPipes
      {| transform := true; whitelist := true; forbidNonWhitelisted := true;
         errorHttpStatusCode := HttpStatus_UNPROCESSABLE_ENTITY;
         exceptionFactory := fun errors => UnprocessableEntityException errors |};
    enableVersioning VersioningType_URI;
    enableCors
      {| origin := corsOrigin;
         methods := ["GET"; "PATCH"; "POST"; "PUT"; "DELETE"; "OPTIONS"; "HEAD"];
         allowedHeaders :=
           ["Content-Type"; "Authorization"; "X-Requested-With"; "Accept"];
         credentials := true |};
    use_helmet;
    useGlobalInterceptors ClassSerializerInterceptor;
    setupSwagger;
    Sentry_init {| dsn := sentryDsn; tracesSampleRate := 1;
                   environment := env |};
    useGlobalInterceptors SentryInterceptor ]
  ++ (if strict_neq env (VString "local") then [setupGracefulShutdown] else [])
  ++ (if isWorker appConfig then [] else [useWebSocketAdapter RedisIoAdapter])
  ++ [ addHook "onRequest" (onRequest_hook BULL_BOARD_PATH valid_credentials);
       listen {| port := listenPort; host := "0.0.0.0" |};
       console_info
         (ESC +:+ "[3" +:+ (if isWorker appConfig then "3" else "4") +:+ "m"
          +:+ (if isWorker appConfig then "Worker " else "")
          +:+ "Server running at "
          +:+ getUrl {| port := listenPort; host := "0.0.0.0" |}) ].

(** ** Further readings of the start-up *)

(** The property paths in the order [bootstrap] first reads them (main.ts,
    lines 60, 83, 101, 106 and 131-133). *)
Definition read_order (appConfig : AppConfig) : list string :=
  [ "auth.authSecret"; "app.corsOrigin"; "app.nodeEnv"; "sentry.dsn";
    if isWorker appConfig then "app.workerPort" else "app.port" ].

Definition is_missing (configService : GlobalConfig) (propertyPath : string)
  : bool :=
  match configService !! propertyPath with
  | Some _ => false
  | None => true
  end.

Definition first_missing (appConfig : AppConfig) (configService : GlobalConfig)
  : option string :=
  List.find (is_missing configService) (read_order appConfig).

Definition cookie_secrets (app : App) : list ConfigValue :=
  omap (fun c => match c with
                 | register_fastifyCookie secret => Some secret
                 | _ => None
                 end) app.

Definition global_prefixes (app : App) : list string :=
  omap (fun c => match c with setGlobalPrefix p => Some p | _ => None end) app.

Definition versionings (app : App) : list VersioningType :=
  omap (fun c => match c with enableVersioning t => Some t | _ => None end) app.

(** The concerns of a start-up that runs to its end, by whether graceful
    shutdown is set up and by process role. *)
Definition all_concerns (graceful worker : bool) : list Concern :=
  [ concern_create; concern_cookie; concern_prefix; concern_validation;
    concern_versioning; concern_cors; concern_security_headers;
    concern_interceptor ClassSerializerInterceptor; concern_swagger;
    concern_error_tracking; concern_interceptor SentryInterceptor ]
  ++ (if graceful then [concern_graceful_shutdown] else [])
  ++ (if worker then [] else [concern_websocket_adapter])
  ++ [ concern_hook "onRequest"; concern_listen; concern_console ].

(** The calls whose presence or arguments [isWorker] decides (main.ts,
    lines 47, 116-118, 130-135 and 139-141). *)
Definition role_specific (c : Call) : bool :=
  match c with
  | NestFactory_create _ _ _ | useWebSocketAdapter _ | listen _
  | console_info _ => true
  | _ => false
  end.

Definition shared_calls (app : App) : App :=
  List.filter (fun c => negb (role_specific c)) app.

Definition with_role (worker : bool) (appConfig : AppConfig) : AppConfig :=
  {| isWorker := worker;
     appLogging := appLogging appConfig;
     nodeEnv := nodeEnv appConfig;
     isHttps := isHttps appConfig |}.

(** An application configuration that says local while the configuration
    service says otherwise. *)
Definition local_appConfig : AppConfig :=
  {| isWorker := false; appLogging := true;
     nodeEnv := Environment.local; isHttps := true |}.

(** * Properties *)

Section Wiring.

Variable consoleLoggingConfig : LoggingConfig.
Variable BULL_BOARD_PATH : string.
Variable getUrl : ListenOptions -> string.
Variable valid_credentials : Request -> bool.

Local Abbreviation started' :=
  (started consoleLoggingConfig BULL_BOARD_PATH getUrl valid_credentials).
Local Abbreviation calls_made' :=
  (calls_made consoleLoggingConfig BULL_BOARD_PATH getUrl valid_credentials).
Local Abbreviation wiring' :=
  (wiring consoleLoggingConfig BULL_BOARD_PATH getUrl valid_credentials).

Ltac unfold_boot :=
  unfold started, calls_made, wiring, run, bootstrap;
  unfold mbind, boot_bind, getOrThrow, call, when, mret, boot_ret.

(** With the five property paths present, [bootstrap] returns, and the
    application is the wiring of the values read. *)
Lemma started_wiring appConfig (configService : GlobalConfig)
    secret corsOrigin env sentryDsn listenPort :
  configService !! "auth.authSecret" = Some secret ->
  configService !! "app.corsOrigin" = Some corsOrigin ->
  configService !! "app.nodeEnv" = Some env ->
  configService !! "sentry.dsn" = Some sentryDsn ->
  configService !! (if isWorker appConfig then "app.workerPort" else "app.port")
    = Some listenPort ->
  started' appConfig configService
  = inr (wiring' appConfig secret corsOrigin env sentryDsn listenPort).
Proof.
  intros Hs Hc He Hd Hp. unfold_boot.
  rewrite Hs, Hc, He, Hd.
  destruct (isWorker appConfig); rewrite Hp;
    destruct (strict_neq env (VString "local")); reflexivity.
Qed.

Lemma started_complete appConfig (configService : GlobalConfig) :
  config_complete appConfig configService ->
  exists secret corsOrigin env sentryDsn listenPort,
    configService !! "auth.authSecret" = Some secret
    /\ configService !! "app.corsOrigin" = Some corsOrigin
    /\ configService !! "app.nodeEnv" = Some env
    /\ configService !! "sentry.dsn" = Some sentryDsn
    /\ configService !!
         (if isWorker appConfig then "app.workerPort" else "app.port")
       = Some listenPort
    /\ started' appConfig configService
       = inr (wiring' appConfig secret corsOrigin env sentryDsn listenPort).
Proof.
  intros ([s Hs] & [c Hc] & [e He] & [d Hd] & [p Hp]).
  exists s, c, e, d, p. repeat (split; [assumption|]).
  now apply started_wiring.
Qed.

(** A start-up that misses one of the paths throws: completeness of the
    configuration is exactly what it takes for [bootstrap] to return. *)
Lemma started_returns_iff appConfig (configService : GlobalConfig) :
  (exists app, started' appConfig configService = inr app)
  <-> config_complete appConfig configService.
Proof.
  split.
  - intros [app H]. revert H. unfold config_complete. unfold_boot.
    destruct (configService !! "auth.authSecret"); [|discriminate].
    destruct (configService !! "app.corsOrigin"); [|discriminate].
    destruct (configService !! "app.nodeEnv") as [env|]; [|discriminate].
    destruct (configService !! "sentry.dsn"); [|discriminate].
    destruct (strict_neq env (VString "local")), (isWorker appConfig);
      cbn [negb];
      match goal with
      | |- context [configService !! ?k] =>
          destruct (configService !! k); [|discriminate]
      end;
      intros _; repeat split; eauto.
  - intros H. destruct (started_complete _ _ H)
      as (s & c & e & d & p & _ & _ & _ & _ & _ & Hrun). eauto.
Qed.

(** C2: with its configuration in place, the application listens once, on
    [app.workerPort] when [isWorker] is set and on [app.port] otherwise, and
    on host 0.0.0.0 in both cases. *)
Theorem listen_port_by_role appConfig (configService : GlobalConfig) :
  config_complete appConfig configService ->
  exists app listenPort,
    started' appConfig configService = inr app
    /\ configService !!
         (if isWorker appConfig then "app.workerPort" else "app.port")
       = Some listenPort
    /\ listening app = [ {| port := listenPort; host := "0.0.0.0" |} ].
Proof.
  intros H. destruct (started_complete _ _ H)
    as (s & c & e & d & p & _ & _ & _ & _ & Hp & Hrun).
  exists (wiring' appConfig s c e d p), p. repeat split; try assumption.
  unfold wiring.
  destruct (strict_neq e (VString "local")), (isWorker appConfig);
    reflexivity.
Qed.

Lemma strict_neq_local_value (e : Environment.t) :
  strict_neq (VString (Environment.value e)) (VString "local")
  = bool_decide (e <> Environment.local).
Proof. destruct e; reflexivity. Qed.

(** C3 (amended): with its configuration in place, graceful shutdown is set
    up exactly when the value of [app.nodeEnv] is not 'local'; for an
    environment mode [e] that is exactly when [e] is not local, so the test
    mode has it set up too. *)
Theorem graceful_shutdown_unless_local appConfig (configService : GlobalConfig) :
  config_complete appConfig configService ->
  exists app env,
    started' appConfig configService = inr app
    /\ configService !! "app.nodeEnv" = Some env
    /\ (existsb is_setupGracefulShutdown app = true <-> env <> VString "local")
    /\ (forall e, env = VString (Environment.value e) ->
          (existsb is_setupGracefulShutdown app = true
           <-> e <> Environment.local)).
Proof.
  intros H. destruct (started_complete _ _ H)
    as (s & c & env & d & p & _ & _ & He & _ & _ & Hrun).
  exists (wiring' appConfig s c env d p), env.
  assert (Hset : existsb is_setupGracefulShutdown
                   (wiring' appConfig s c env d p)
                 = strict_neq env (VString "local")).
  { unfold wiring.
    destruct (strict_neq env (VString "local")), (isWorker appConfig);
      reflexivity. }
  repeat split; try assumption.
  - rewrite Hset. unfold strict_neq. now rewrite bool_decide_eq_true.
  - rewrite Hset. unfold strict_neq. now rewrite bool_decide_eq_true.
  - subst env. rewrite Hset, strict_neq_local_value.
    now rewrite bool_decide_eq_true.
  - subst env. rewrite Hset, strict_neq_local_value.
    now rewrite bool_decide_eq_true.
Qed.

(** C5 (amended): with its configuration in place, every start-up registers
    the same concerns in the same order, but for two that are conditional:
    graceful shutdown is registered only when [app.nodeEnv] is not 'local',
    and the WebSocket adapter swap only in main server mode.  The dashboard
    gate (the [onRequest] hook) is registered in both modes. *)
Theorem concerns_in_order appConfig (configService : GlobalConfig) :
  config_complete appConfig configService ->
  exists app env,
    started' appConfig configService = inr app
    /\ configService !! "app.nodeEnv" = Some env
    /\ concerns app
       = [ concern_create; concern_cookie; concern_prefix; concern_validation;
           concern_versioning; concern_cors; concern_security_headers;
           concern_interceptor ClassSerializerInterceptor; concern_swagger;
           concern_error_tracking; concern_interceptor SentryInterceptor ]
         ++ (if bool_decide (env <> VString "local")
             then [concern_graceful_shutdown] else [])
         ++ (if isWorker appConfig then [] else [concern_websocket_adapter])
         ++ [ concern_hook "onRequest"; concern_listen; concern_console ].
Proof.
  intros H. destruct (started_complete _ _ H)
    as (s & c & env & d & p & _ & _ & He & _ & _ & Hrun).
  exists (wiring' appConfig s c env d p), env.
  repeat split; try assumption.
  unfold wiring, strict_neq.
  destruct (bool_decide (env <> VString "local")), (isWorker appConfig);
    reflexivity.
Qed.

(** C6: with its configuration in place, CORS is enabled once, with the
    origin read from [app.corsOrigin], the seven methods, the four allowed
    headers, and credentials on. *)
Theorem cors_policy appConfig (configService : GlobalConfig) :
  config_complete appConfig configService ->
  exists app corsOrigin,
    started' appConfig configService = inr app
    /\ configService !! "app.corsOrigin" = Some corsOrigin
    /\ cors_enabled app
       = [ {| origin := corsOrigin;
              methods :=
                ["GET"; "PATCH"; "POST"; "PUT"; "DELETE"; "OPTIONS"; "HEAD"];
              allowedHeaders :=
                ["Content-Type"; "Authorization"; "X-Requested-With";
                 "Accept"];
              credentials := true |} ].
Proof.
  intros H. destruct (started_complete _ _ H)
    as (s & c & env & d & p & _ & Hc & _ & _ & _ & Hrun).
  exists (wiring' appConfig s c env d p), c.
  repeat split; try assumption.
  unfold wiring.
  destruct (strict_neq env (VString "local")), (isWorker appConfig);
    reflexivity.
Qed.

(** The application is created first, whatever the configuration holds: the
    adapter is built before any property path is read. *)
Lemma created_adapter appConfig (configService : GlobalConfig) :
  created_adapters (calls_made' appConfig configService)
  = [ {| logger := if appLogging appConfig
                   then envToLogger consoleLoggingConfig (nodeEnv appConfig)
                   else logger_flag false;
         trustProxy := isHttps appConfig |} ].
Proof.
  unfold_boot.
  destruct (configService !! "auth.authSecret"); [|reflexivity].
  destruct (configService !! "app.corsOrigin"); [|reflexivity].
  destruct (configService !! "app.nodeEnv") as [env|]; [|reflexivity].
  destruct (configService !! "sentry.dsn"); [|reflexivity].
  destruct (strict_neq env (VString "local")), (isWorker appConfig);
    cbn [negb];
    match goal with
    | |- context [configService !! ?k] => destruct (configService !! k)
    end; reflexivity.
Qed.

(** C9: at every start-up the adapter's logger is off when [appLogging] is
    false; when it is true the logger follows the environment mode alone:
    the console logging configuration in local and development, on in
    production and staging, off in test. *)
Theorem logger_by_flag_and_mode appConfig (configService : GlobalConfig) :
  exists adapter,
    created_adapters (calls_made' appConfig configService) = [adapter]
    /\ logger adapter
       = (if appLogging appConfig
         then match nodeEnv appConfig with
              | Environment.local | Environment.development =>
                  logger_settings consoleLoggingConfig
              | Environment.production | Environment.staging =>
                  logger_flag true
              | Environment.test => logger_flag false
              end
         else logger_flag false)
    /\ (appLogging appConfig = false -> logger adapter = logger_flag false)
    /\ (nodeEnv appConfig = Environment.test ->
        logger adapter = logger_flag false).
Proof.
  eexists. split; [apply created_adapter|].
  cbn [logger]. split; [|split].
  - destruct (appLogging appConfig); [|reflexivity].
    destruct (nodeEnv appConfig); reflexivity.
  - intros Hoff. now rewrite Hoff.
  - intros Htest. rewrite Htest. now destruct (appLogging appConfig).
Qed.

(** *** The validation pipe *)

Lemma whitelist_reports_unexpected dto body name :
  In name (map fst body) -> declares dto name = false ->
  In {| property := name;
        constraints := [("whitelistValidation",
                         "property " +:+ name +:+ " should not exist")] |}
     (whitelist_errors dto body).
Proof.
  intros Hin Hdecl. unfold whitelist_errors, notAllowedProperties.
  apply in_map_iff. exists name. split; [reflexivity|].
  apply filter_In. split; [assumption|]. now rewrite Hdecl.
Qed.

Lemma property_errors_malformed dto body :
  has_malformed_field dto body -> property_errors dto body <> [].
Proof.
  intros (name & check & v & Hin & Hget & Hbad) Hnil.
  assert (Helem : {| property := name; constraints := check (Some v) |}
                  ∈ property_errors dto body).
  { apply list_elem_of_omap. exists (name, check).
    split; [now apply list_elem_of_In|].
    cbn [fst snd]. rewrite Hget. now destruct (check (Some v)). }
  rewrite Hnil in Helem. now apply not_elem_of_nil in Helem.
Qed.

Lemma transform_throws o dto body :
  validate o dto body <> [] ->
  ValidationPipe_transform o dto body
  = inl (exceptionFactory o (validate o dto body)).
Proof.
  intros H. unfold ValidationPipe_transform.
  now destruct (validate o dto body).
Qed.

(** C1: with its configuration in place, the application has one global
    pipe, and that pipe throws on every body that has a field its DTO does
    not declare or a declared field that violates a constraint: the
    exception has status 422 and its response carries the list of
    validation errors, among them one for each unexpected field. *)
Theorem validation_rejects_with_422 appConfig (configService : GlobalConfig) :
  config_complete appConfig configService ->
  exists app pipe,
    started' appConfig configService = inr app
    /\ globalPipes app = [pipe]
    /\ forall dto body,
         has_unexpected_field dto body \/ has_malformed_field dto body ->
         exists e errors,
           ValidationPipe_transform pipe dto body = inl e
           /\ errors = validate pipe dto body
           /\ errors <> []
           /\ getStatus e = 422
           /\ getResponse e
              = {| statusCode := 422; message := errors;
                   error := "Unprocessable Entity" |}
           /\ forall name,
                In name (map fst body) -> declares dto name = false ->
                exists err, In err errors /\ property err = name.
Proof.
  intros H. destruct (started_complete _ _ H)
    as (s & c & env & d & p & _ & _ & _ & _ & _ & Hrun).
  exists (wiring' appConfig s c env d p). eexists.
  split; [assumption|]. split.
  { unfold wiring.
    destruct (strict_neq env (VString "local")), (isWorker appConfig);
      reflexivity. }
  intros dto body Hbad.
  set (pipe := {| transform := true; whitelist := true |}).
  assert (Hne : validate pipe dto body <> []).
  { unfold validate. cbn [whitelist forbidNonWhitelisted pipe andb].
    destruct Hbad as [(name & Hin & Hdecl) | Hmal].
    - intros Hnil. apply app_eq_nil in Hnil as [Hnil _].
      pose proof (whitelist_reports_unexpected dto body name Hin Hdecl) as Hw.
      rewrite Hnil in Hw. destruct Hw.
    - intros Hnil. apply app_eq_nil in Hnil as [_ Hnil].
      now apply (property_errors_malformed dto body). }
  exists (UnprocessableEntityException (validate pipe dto body)),
         (validate pipe dto body).
  split; [now rewrite transform_throws|].
  repeat split; try assumption.
  intros name Hin Hdecl. eexists. split.
  - unfold validate. cbn [whitelist forbidNonWhitelisted pipe andb].
    apply in_or_app. left.
    exact (whitelist_reports_unexpected dto body name Hin Hdecl).
  - reflexivity.
Qed.

(** *** The dashboard gate *)

Lemma onRequest_hooks_wiring appConfig secret corsOrigin env sentryDsn port :
  onRequest_hooks (wiring' appConfig secret corsOrigin env sentryDsn port)
  = [onRequest_hook BULL_BOARD_PATH valid_credentials].
Proof.
  unfold wiring.
  destruct (strict_neq env (VString "local")), (isWorker appConfig);
    reflexivity.
Qed.

(** C4: with its configuration in place, a request whose URL starts with
    '/api' followed by [BULL_BOARD_PATH] has the authentication check run on
    it first; without valid credentials it is rejected there and never
    routed, with valid credentials it is routed after the check. *)
Theorem dashboard_requests_are_gated appConfig (configService : GlobalConfig) :
  config_complete appConfig configService ->
  exists app,
    started' appConfig configService = inr app
    /\ forall route req,
         String.prefix ("/api" +:+ BULL_BOARD_PATH) (url req) = true ->
         handle_request route app req
         = if valid_credentials req
           then route req {| reply_sent := false;
                             trace := [ev_bullBoardAuth req; ev_routed req] |}
           else {| reply_sent := true;
                   trace := [ev_bullBoardAuth req; ev_rejected req] |}.
Proof.
  intros H. destruct (started_complete _ _ H)
    as (s & c & env & d & p & _ & _ & _ & _ & _ & Hrun).
  exists (wiring' appConfig s c env d p). split; [assumption|].
  intros route req Hurl. unfold handle_request.
  rewrite onRequest_hooks_wiring. cbn [run_hooks fresh_exchange reply_sent].
  unfold onRequest_hook, bullBoardAuthMiddleware. rewrite Hurl.
  destruct (valid_credentials req); reflexivity.
Qed.

(** C10: with its configuration in place, a request whose URL does not
    start with '/api' followed by [BULL_BOARD_PATH] goes through the hook
    untouched: nothing is recorded on it, the authentication check is not in
    its trace, and it is routed exactly as it would be with no hook. *)
Theorem other_requests_bypass_the_gate appConfig (configService : GlobalConfig) :
  config_complete appConfig configService ->
  exists app,
    started' appConfig configService = inr app
    /\ forall route req,
         String.prefix ("/api" +:+ BULL_BOARD_PATH) (url req) = false ->
         (forall reply,
            onRequest_hook BULL_BOARD_PATH valid_credentials req reply = reply)
         /\ run_hooks (onRequest_hooks app) req fresh_exchange = fresh_exchange
         /\ handle_request route app req
            = route req {| reply_sent := false; trace := [ev_routed req] |}
         /\ handle_request route app req = handle_request route [] req.
Proof.
  intros H. destruct (started_complete _ _ H)
    as (s & c & env & d & p & _ & _ & _ & _ & _ & Hrun).
  exists (wiring' appConfig s c env d p). split; [assumption|].
  intros route req Hurl.
  assert (Hid : forall reply,
             onRequest_hook BULL_BOARD_PATH valid_credentials req reply = reply).
  { intros reply. unfold onRequest_hook. now rewrite Hurl. }
  split; [exact Hid|].
  unfold handle_request. rewrite onRequest_hooks_wiring.
  cbn [run_hooks fresh_exchange reply_sent onRequest_hooks omap].
  rewrite Hid. repeat split; reflexivity.
Qed.

End Wiring.

(** *** The entity *)

(** C8: the entity file declares one entity, mapped to the table
    'verification'; its own columns are [identifier] and [value], both
    strings with no options, and [expiresAt], a date of database type
    'timestamp'; the table has the parent's columns besides; no column is
    declared unique, and the class has no method. *)
Theorem verification_entity_schema (inherited : list ColumnMetadata) :
  flat_map tables entity_file = ["verification"]
  /\ class_extends VerificationEntity = Some "BaseModel"
  /\ map (fun c => (column_name c, column_tsType c, column_type c))
         (declared_columns VerificationEntity)
     = [ ("identifier", ts_string, None);
         ("value", ts_string, None);
         ("expiresAt", ts_Date, Some (JString "timestamp")) ]
  /\ table_columns inherited VerificationEntity
     = inherited ++ declared_columns VerificationEntity
  /\ forallb (fun c => negb (column_unique c))
             (declared_columns VerificationEntity) = true
  /\ map property_name (class_properties VerificationEntity)
     = map column_name (declared_columns VerificationEntity)
  /\ class_methods VerificationEntity = [].
Proof. repeat split. Qed.

(** *** The properties at work on sample configurations *)

Lemma sample_config_complete appConfig e :
  config_complete appConfig (sample_config e).
Proof.
  unfold config_complete.
  destruct (isWorker appConfig); repeat split; eexists; reflexivity.
Qed.

(** A worker listens on 3001 and a main server on 3000, both on 0.0.0.0. *)
Lemma listen_port_by_role_witness :
  config_complete worker_appConfig (sample_config Environment.production)
  /\ (exists app,
        sample_started worker_appConfig Environment.production = inr app
        /\ listening app = [ {| port := VNumber 3001; host := "0.0.0.0" |} ])
  /\ (exists app,
        sample_started main_appConfig Environment.production = inr app
        /\ listening app = [ {| port := VNumber 3000; host := "0.0.0.0" |} ]).
Proof.
  split; [apply sample_config_complete|]. split.
  - destruct (listen_port_by_role sample_consoleLoggingConfig
                sample_BULL_BOARD_PATH sample_getUrl sample_valid_credentials
                worker_appConfig (sample_config Environment.production)
                (sample_config_complete _ _))
      as (app & listenPort & Hrun & Hport & Hlisten).
    exists app. split; [exact Hrun|].
    vm_compute in Hport. injection Hport as <-. exact Hlisten.
  - destruct (listen_port_by_role sample_consoleLoggingConfig
                sample_BULL_BOARD_PATH sample_getUrl sample_valid_credentials
                main_appConfig (sample_config Environment.production)
                (sample_config_complete _ _))
      as (app & listenPort & Hrun & Hport & Hlisten).
    exists app. split; [exact Hrun|].
    vm_compute in Hport. injection Hport as <-. exact Hlisten.
Defined.

(** In staging, graceful shutdown is set up. *)
Lemma graceful_shutdown_unless_local_witness :
  config_complete main_appConfig (sample_config Environment.staging)
  /\ exists app,
       sample_started main_appConfig Environment.staging = inr app
       /\ existsb is_setupGracefulShutdown app = true.
Proof.
  split; [apply sample_config_complete|].
  destruct (graceful_shutdown_unless_local sample_consoleLoggingConfig
              sample_BULL_BOARD_PATH sample_getUrl sample_valid_credentials
              main_appConfig (sample_config Environment.staging)
              (sample_config_complete _ _))
    as (app & env & Hrun & Henv & _ & Hmode).
  exists app. split; [exact Hrun|].
  vm_compute in Henv. injection Henv as <-.
  apply (Hmode Environment.staging); [reflexivity | discriminate].
Defined.

(** C3, as stated, fails in test mode: graceful shutdown is set up there. *)
Lemma graceful_shutdown_set_up_in_test :
  sample_config Environment.test !! "app.nodeEnv"
  = Some (VString (Environment.value Environment.test))
  /\ exists app,
       sample_started main_appConfig Environment.test = inr app
       /\ existsb is_setupGracefulShutdown app = true
       /\ ~ (existsb is_setupGracefulShutdown app = true
             <-> Environment.test <> Environment.local
                 /\ Environment.test <> Environment.test).
Proof.
  split; [reflexivity|].
  eexists. split; [vm_compute; reflexivity|].
  split; [reflexivity|].
  intros [Hclaim _]. now destruct (Hclaim eq_refl) as [_ Hne].
Qed.

(** A worker in local mode registers neither conditional concern. *)
Lemma concerns_in_order_witness :
  config_complete worker_appConfig (sample_config Environment.local)
  /\ exists app,
       sample_started worker_appConfig Environment.local = inr app
       /\ concerns app
          = [ concern_create; concern_cookie; concern_prefix;
              concern_validation; concern_versioning; concern_cors;
              concern_security_headers;
              concern_interceptor ClassSerializerInterceptor; concern_swagger;
              concern_error_tracking; concern_interceptor SentryInterceptor;
              concern_hook "onRequest"; concern_listen; concern_console ].
Proof.
  split; [apply sample_config_complete|].
  destruct (concerns_in_order sample_consoleLoggingConfig
              sample_BULL_BOARD_PATH sample_getUrl sample_valid_credentials
              worker_appConfig (sample_config Environment.local)
              (sample_config_complete _ _))
    as (app & env & Hrun & Henv & Hconcerns).
  exists app. split; [exact Hrun|].
  vm_compute in Henv. injection Henv as <-. exact Hconcerns.
Defined.

(** C5, as stated, fails: a worker does not swap the WebSocket adapter, a
    main server does, and in local mode no graceful shutdown is set up. *)
Lemma worker_and_main_concerns_differ :
  exists worker main local_main,
    sample_started worker_appConfig Environment.production = inr worker
    /\ sample_started main_appConfig Environment.production = inr main
    /\ sample_started main_appConfig Environment.local = inr local_main
    /\ existsb is_useWebSocketAdapter worker = false
    /\ existsb is_useWebSocketAdapter main = true
    /\ existsb is_setupGracefulShutdown local_main = false
    /\ concerns worker <> concerns main.
Proof.
  do 3 eexists.
  split; [vm_compute; reflexivity|].
  split; [vm_compute; reflexivity|].
  split; [vm_compute; reflexivity|].
  repeat split; discriminate.
Qed.

(** The CORS options of a main server in production. *)
Lemma cors_policy_witness :
  config_complete main_appConfig (sample_config Environment.production)
  /\ exists app,
       sample_started main_appConfig Environment.production = inr app
       /\ cors_enabled app
          = [ {| origin := VString "https://example.org";
                 methods :=
                   ["GET"; "PATCH"; "POST"; "PUT"; "DELETE"; "OPTIONS";
                    "HEAD"];
                 allowedHeaders :=
                   ["Content-Type"; "Authorization"; "X-Requested-With";
                    "Accept"];
                 credentials := true |} ].
Proof.
  split; [apply sample_config_complete|].
  destruct (cors_policy sample_consoleLoggingConfig
              sample_BULL_BOARD_PATH sample_getUrl sample_valid_credentials
              main_appConfig (sample_config Environment.production)
              (sample_config_complete _ _))
    as (app & corsOrigin & Hrun & Horigin & Hcors).
  exists app. split; [exact Hrun|].
  vm_compute in Horigin. injection Horigin as <-. exact Hcors.
Defined.

Lemma sample_body_unexpected : has_unexpected_field sample_dto sample_body.
Proof. exists "admin". split; [right; left|]; reflexivity. Qed.

(** A body with an [admin] field the DTO does not declare is rejected with
    422, and the error names [admin]. *)
Lemma validation_rejects_with_422_witness :
  config_complete main_appConfig (sample_config Environment.production)
  /\ has_unexpected_field sample_dto sample_body
  /\ exists app pipe e,
       sample_started main_appConfig Environment.production = inr app
       /\ globalPipes app = [pipe]
       /\ ValidationPipe_transform pipe sample_dto sample_body = inl e
       /\ getStatus e = 422
       /\ exists err, In err (message (getResponse e)) /\ property err = "admin".
Proof.
  split; [apply sample_config_complete|].
  split; [apply sample_body_unexpected|].
  destruct (validation_rejects_with_422 sample_consoleLoggingConfig
              sample_BULL_BOARD_PATH sample_getUrl sample_valid_credentials
              main_appConfig (sample_config Environment.production)
              (sample_config_complete _ _))
    as (app & pipe & Hrun & Hpipes & Hrejects).
  destruct (Hrejects sample_dto sample_body (or_introl sample_body_unexpected))
    as (e & errors & Hthrow & _ & _ & Hstatus & Hresponse & Hnamed).
  exists app, pipe, e. repeat (split; [assumption|]).
  rewrite Hresponse. cbn [message].
  apply (Hnamed "admin"); [right; left|]; reflexivity.
Defined.

(** A dashboard request without credentials is rejected at the gate. *)
Lemma dashboard_requests_are_gated_witness :
  config_complete main_appConfig (sample_config Environment.production)
  /\ String.prefix ("/api" +:+ sample_BULL_BOARD_PATH) (url dashboard_request)
     = true
  /\ exists app,
       sample_started main_appConfig Environment.production = inr app
       /\ forall route,
            handle_request route app dashboard_request
            = {| reply_sent := true;
                 trace := [ev_bullBoardAuth dashboard_request;
                           ev_rejected dashboard_request] |}.
Proof.
  split; [apply sample_config_complete|].
  split; [reflexivity|].
  destruct (dashboard_requests_are_gated sample_consoleLoggingConfig
              sample_BULL_BOARD_PATH sample_getUrl sample_valid_credentials
              main_appConfig (sample_config Environment.production)
              (sample_config_complete _ _))
    as (app & Hrun & Hgate).
  exists app. split; [exact Hrun|].
  intros route. exact (Hgate route dashboard_request eq_refl).
Defined.

(** A request for [/api/v1/users] is routed with the gate never run. *)
Lemma other_requests_bypass_the_gate_witness :
  config_complete main_appConfig (sample_config Environment.production)
  /\ String.prefix ("/api" +:+ sample_BULL_BOARD_PATH) (url users_request)
     = false
  /\ exists app,
       sample_started main_appConfig Environment.production = inr app
       /\ forall route,
            handle_request route app users_request
            = route users_request
                {| reply_sent := false; trace := [ev_routed users_request] |}.
Proof.
  split; [apply sample_config_complete|].
  split; [reflexivity|].
  destruct (other_requests_bypass_the_gate sample_consoleLoggingConfig
              sample_BULL_BOARD_PATH sample_getUrl sample_valid_credentials
              main_appConfig (sample_config Environment.production)
              (sample_config_complete _ _))
    as (app & Hrun & Hbypass).
  exists app. split; [exact Hrun|].
  intros route.
  destruct (Hbypass route users_request eq_refl) as (_ & _ & Hrouted & _).
  exact Hrouted.
Defined.

(** * Further properties of the start-up *)

Section Startup.

Variable consoleLoggingConfig : LoggingConfig.
Variable BULL_BOARD_PATH : string.
Variable getUrl : ListenOptions -> string.
Variable valid_credentials : Request -> bool.

Local Abbreviation started' :=
  (started consoleLoggingConfig BULL_BOARD_PATH getUrl valid_credentials).
Local Abbreviation calls_made' :=
  (calls_made consoleLoggingConfig BULL_BOARD_PATH getUrl valid_credentials).
Local Abbreviation hook' := (onRequest_hook BULL_BOARD_PATH valid_credentials).

Ltac open_boot :=
  unfold started, calls_made, run, bootstrap;
  unfold mbind, boot_bind, getOrThrow, call, when, mret, boot_ret.

(** Case analysis on every path the start-up reads, and on its two
    guards. *)
Ltac boot_cases appConfig configService :=
  destruct (isWorker appConfig) eqn:?;
  repeat match goal with
    | |- context [configService !! ?k] =>
        destruct (configService !! k) eqn:?
    end;
  repeat match goal with
    | |- context [strict_neq ?a ?b] => destruct (strict_neq a b) eqn:?
    end;
  cbn [negb].

(** X1: a start-up cannot return while a path it reads is missing, and the
    only missing path it ever reports is the first one, in reading order,
    that the configuration lacks. *)
Theorem only_first_missing_path_is_reported appConfig
    (configService : GlobalConfig) :
  (forall app, started' appConfig configService = inr app ->
     first_missing appConfig configService = None)
  /\ (forall propertyPath,
        started' appConfig configService
        = inl (TypeError_missing_key propertyPath) ->
        first_missing appConfig configService = Some propertyPath).
Proof.
  unfold first_missing, read_order, is_missing. open_boot.
  boot_cases appConfig configService; cbn [List.find];
    repeat match goal with
      | H : configService !! _ = _ |- _ => rewrite H
      end;
    (split; [intros app Hrun | intros propertyPath Hrun]);
    first [discriminate Hrun | reflexivity | now injection Hrun as <-].
Qed.

(** X2: every path is read before the application listens: a start-up that
    throws for a missing path has made no [listen] call, and one that
    returns has made exactly one, the application it returns being the log
    of its calls. *)
Theorem paths_are_read_before_listening appConfig
    (configService : GlobalConfig) :
  (forall propertyPath,
     started' appConfig configService
     = inl (TypeError_missing_key propertyPath) ->
     listening (calls_made' appConfig configService) = [])
  /\ (forall app, started' appConfig configService = inr app ->
        calls_made' appConfig configService = app
        /\ exists options, listening app = [options]).
Proof.
  open_boot.
  boot_cases appConfig configService;
    (split; [intros propertyPath Hrun | intros app Hrun]);
    first [ discriminate Hrun
          | reflexivity
          | injection Hrun as <-; split; [reflexivity | eexists; reflexivity] ].
Qed.

(** X3: whatever the configuration, the calls come in the one fixed order: the
    concerns of a start-up, thrown or returned, are an initial segment of
    the full list. *)
Theorem calls_follow_fixed_order appConfig (configService : GlobalConfig) :
  exists graceful,
    concerns (calls_made' appConfig configService)
    `prefix_of` all_concerns graceful (isWorker appConfig).
Proof.
  open_boot.
  boot_cases appConfig configService;
    first [ exists true; eexists; cbn; reflexivity
          | exists false; eexists; cbn; reflexivity ].
Qed.

(** X4: the start-up depends on the configuration through the paths it reads
    and nothing else: two configurations that agree on them give the same
    calls and the same result. *)
Theorem bootstrap_reads_only_its_paths appConfig
    (configService configService' : GlobalConfig) :
  (forall propertyPath, In propertyPath (read_order appConfig) ->
     configService !! propertyPath = configService' !! propertyPath) ->
  started' appConfig configService = started' appConfig configService'
  /\ calls_made' appConfig configService
     = calls_made' appConfig configService'.
Proof.
  intros Hagree.
  assert (Hs := Hagree "auth.authSecret" ltac:(cbn; tauto)).
  assert (Hc := Hagree "app.corsOrigin" ltac:(cbn; tauto)).
  assert (He := Hagree "app.nodeEnv" ltac:(cbn; tauto)).
  assert (Hd := Hagree "sentry.dsn" ltac:(cbn; tauto)).
  assert (Hp := Hagree
                  (if isWorker appConfig then "app.workerPort" else "app.port")
                  ltac:(cbn; tauto)).
  open_boot. rewrite Hs, Hc, He, Hd.
  destruct (isWorker appConfig); rewrite Hp; split; reflexivity.
Qed.

(** X5: the application is created first and once, before any path is read, so
    also in a start-up that throws: the worker module when [isWorker] is
    set and the main one otherwise, trusting the proxy exactly when
    [isHttps] is set, with buffered logs. *)
Theorem application_created_first appConfig (configService : GlobalConfig) :
  exists adapter rest,
    calls_made' appConfig configService
    = NestFactory_create
        (if isWorker appConfig then AppModule_worker else AppModule_main)
        adapter true :: rest
    /\ trustProxy adapter = isHttps appConfig
    /\ created_adapters rest = [].
Proof.
  open_boot.
  boot_cases appConfig configService;
    do 2 eexists; (split; [reflexivity|]); split; reflexivity.
Qed.

Lemma prefix_append (p rest : string) : String.prefix p (p +:+ rest) = true.
Proof.
  induction p as [|a p IH]; [now destruct rest|].
  change (String a p +:+ rest) with (String a (p +:+ rest)).
  cbn [String.prefix].
  destruct (ascii_dec a a); [exact IH | congruence].
Qed.

Lemma prefix_inv (p s : string) :
  String.prefix p s = true -> exists rest, s = p +:+ rest.
Proof.
  revert s. induction p as [|a p IH]; intros s H.
  - exists s. reflexivity.
  - destruct s as [|b s]; [discriminate|]. cbn [String.prefix] in H.
    destruct (ascii_dec a b) as [->|]; [|discriminate].
    destruct (IH s H) as [rest ->]. now exists rest.
Qed.

Lemma prefix_shorter (p q s : string) :
  String.prefix (p +:+ q) s = true -> String.prefix p s = true.
Proof.
  revert s. induction p as [|a p IH]; intros s H; [now destruct s|].
  change (String a p +:+ q) with (String a (p +:+ q)) in H.
  destruct s as [|b s]; [discriminate|]. cbn [String.prefix] in *.
  destruct (ascii_dec a b); [now apply IH | discriminate].
Qed.

(** X6: the hook hands a request to the authentication check exactly when its
    URL is '/api' and [BULL_BOARD_PATH] followed by anything: sub-paths,
    query strings and longer names alike; any other request it leaves as it
    found it. *)
Theorem gate_by_url_extension (req : Request) (reply : Exchange) :
  ((exists rest, url req = "/api" +:+ BULL_BOARD_PATH +:+ rest) ->
   hook' req reply = bullBoardAuthMiddleware valid_credentials req reply)
  /\ ((forall rest, url req <> "/api" +:+ BULL_BOARD_PATH +:+ rest) ->
      hook' req reply = reply).
Proof.
  unfold onRequest_hook. split.
  - intros [rest Hurl].
    assert (Hext : url req = ("/api" +:+ BULL_BOARD_PATH) +:+ rest)
      by (rewrite Hurl; reflexivity).
    rewrite Hext at 1. now rewrite prefix_append.
  - intros Hnone.
    destruct (String.prefix ("/api" +:+ BULL_BOARD_PATH) (url req)) eqn:Hp;
      [|reflexivity].
    destruct (prefix_inv _ _ Hp) as [rest Hurl].
    exfalso. apply (Hnone rest). rewrite Hurl. reflexivity.
Qed.

(** X7: with its configuration in place, listening is the last thing done to
    the application: every registration, the [onRequest] hook among them,
    comes before the one [listen] call, and only the console line, which
    reports the address of those very listen options, comes after. *)
Theorem registrations_precede_listen appConfig (configService : GlobalConfig) :
  config_complete appConfig configService ->
  exists app before options colour,
    started' appConfig configService = inr app
    /\ app = before
             ++ [ listen options;
                  console_info
                    (colour +:+ "Server running at " +:+ getUrl options) ]
    /\ listening before = []
    /\ onRequest_hooks before = [hook'].
Proof.
  intros H.
  destruct (started_complete consoleLoggingConfig BULL_BOARD_PATH getUrl
              valid_credentials _ _ H)
    as (s & c & env & d & p & _ & _ & _ & _ & _ & Hrun).
  exists (wiring consoleLoggingConfig BULL_BOARD_PATH getUrl
            valid_credentials appConfig s c env d p),
         (removelast (removelast
            (wiring consoleLoggingConfig BULL_BOARD_PATH getUrl
               valid_credentials appConfig s c env d p))),
         {| port := p; host := "0.0.0.0" |},
         (ESC +:+ "[3" +:+ (if isWorker appConfig then "3" else "4") +:+ "m"
          +:+ (if isWorker appConfig then "Worker " else "")).
  split; [exact Hrun|]. unfold wiring.
  destruct (strict_neq env (VString "local")), (isWorker appConfig);
    repeat split; reflexivity.
Qed.

(** X8: with its configuration in place, the cookie plugin is registered once,
    with the secret read from [auth.authSecret]; the global prefix is 'api'
    and versioning goes by URI; and the dashboard gate only ever fires on
    URLs under that global prefix. *)
Theorem http_surface appConfig (configService : GlobalConfig) :
  config_complete appConfig configService ->
  exists app secret,
    started' appConfig configService = inr app
    /\ configService !! "auth.authSecret" = Some secret
    /\ cookie_secrets app = [secret]
    /\ global_prefixes app = ["api"]
    /\ versionings app = [VersioningType_URI]
    /\ forall globalPrefix req,
         In globalPrefix (global_prefixes app) ->
         String.prefix ("/api" +:+ BULL_BOARD_PATH) (url req) = true ->
         String.prefix ("/" +:+ globalPrefix) (url req) = true.
Proof.
  intros H.
  destruct (started_complete consoleLoggingConfig BULL_BOARD_PATH getUrl
              valid_credentials _ _ H)
    as (s & c & env & d & p & Hs & _ & _ & _ & _ & Hrun).
  rewrite Hrun. unfold wiring.
  destruct (strict_neq env (VString "local")), (isWorker appConfig);
    do 2 eexists; (split; [reflexivity|]); (split; [exact Hs|]);
    (repeat (split; [reflexivity|]));
    intros globalPrefix req [<-|[]] Hgate;
    exact (prefix_shorter "/api" BULL_BOARD_PATH (url req) Hgate).
Qed.

(** X9: the environment mode and the flags of the application configuration
    shape the adapter and nothing else: two start-ups of the same role make
    the same calls after the creation, whatever their modes, so graceful
    shutdown follows [app.nodeEnv] of the configuration service and never
    [nodeEnv] of the application configuration. *)
Theorem appConfig_mode_only_shapes_the_adapter appConfig appConfig'
    (configService : GlobalConfig) :
  isWorker appConfig = isWorker appConfig' ->
  tail (calls_made consoleLoggingConfig BULL_BOARD_PATH getUrl
          valid_credentials appConfig configService)
  = tail (calls_made consoleLoggingConfig BULL_BOARD_PATH getUrl
            valid_credentials appConfig' configService).
Proof.
  intros Hrole. open_boot. rewrite Hrole.
  boot_cases appConfig' configService; reflexivity.
Qed.

(** X10: the two roles differ in the module created, the WebSocket adapter, the
    listen call and the console line, and in nothing else: every other call
    is made by both, with the same arguments, whatever the configuration. *)
Theorem roles_share_all_other_calls appConfig (configService : GlobalConfig) :
  shared_calls (calls_made' (with_role true appConfig) configService)
  = shared_calls (calls_made' (with_role false appConfig) configService).
Proof.
  open_boot. cbn [isWorker with_role].
  repeat match goal with
    | |- context [configService !! ?k] => destruct (configService !! k)
    end;
  repeat match goal with
    | |- context [strict_neq ?a ?b] => destruct (strict_neq a b)
    end;
  reflexivity.
Qed.

(** X11: with its configuration in place, the monitoring SDK is initialised
    once, with the DSN read from [sentry.dsn], the environment read from
    [app.nodeEnv] and a sample rate of one, and the global interceptors are
    the serializer and then the error-forwarding one. *)
Theorem error_monitoring_is_wired appConfig (configService : GlobalConfig) :
  config_complete appConfig configService ->
  exists app sentryDsn env,
    started' appConfig configService = inr app
    /\ configService !! "sentry.dsn" = Some sentryDsn
    /\ configService !! "app.nodeEnv" = Some env
    /\ sentry_inits app
       = [ {| dsn := sentryDsn; tracesSampleRate := 1; environment := env |} ]
    /\ globalInterceptors app = [ClassSerializerInterceptor; SentryInterceptor].
Proof.
  intros H.
  destruct (started_complete consoleLoggingConfig BULL_BOARD_PATH getUrl
              valid_credentials _ _ H)
    as (s & c & env & d & p & _ & _ & He & Hd & _ & Hrun).
  exists (wiring consoleLoggingConfig BULL_BOARD_PATH getUrl
            valid_credentials appConfig s c env d p), d, env.
  split; [exact Hrun|]. split; [exact Hd|]. split; [exact He|].
  unfold wiring.
  destruct (strict_neq env (VString "local")), (isWorker appConfig);
    split; reflexivity.
Qed.

End Startup.

(** Without the DSN the start-up reports [sentry.dsn], the first path it
    finds missing, and has not listened. *)
Lemma only_first_missing_path_is_reported_witness :
  started sample_consoleLoggingConfig sample_BULL_BOARD_PATH sample_getUrl
    sample_valid_credentials main_appConfig config_without_dsn
  = inl (TypeError_missing_key "sentry.dsn")
  /\ first_missing main_appConfig config_without_dsn = Some "sentry.dsn".
Proof.
  assert (Hthrows :
            started sample_consoleLoggingConfig sample_BULL_BOARD_PATH
              sample_getUrl sample_valid_credentials main_appConfig
              config_without_dsn
            = inl (TypeError_missing_key "sentry.dsn")) by reflexivity.
  split; [exact Hthrows|].
  exact (proj2 (only_first_missing_path_is_reported
                  sample_consoleLoggingConfig sample_BULL_BOARD_PATH
                  sample_getUrl sample_valid_credentials main_appConfig
                  config_without_dsn) "sentry.dsn" Hthrows).
Defined.

Lemma paths_are_read_before_listening_witness :
  started sample_consoleLoggingConfig sample_BULL_BOARD_PATH sample_getUrl
    sample_valid_credentials main_appConfig config_without_dsn
  = inl (TypeError_missing_key "sentry.dsn")
  /\ listening
       (calls_made sample_consoleLoggingConfig sample_BULL_BOARD_PATH
          sample_getUrl sample_valid_credentials main_appConfig
          config_without_dsn) = []
  /\ exists app options,
       sample_started main_appConfig Environment.production = inr app
       /\ listening app = [options].
Proof.
  assert (Hthrows :
            started sample_consoleLoggingConfig sample_BULL_BOARD_PATH
              sample_getUrl sample_valid_credentials main_appConfig
              config_without_dsn
            = inl (TypeError_missing_key "sentry.dsn")) by reflexivity.
  split; [exact Hthrows|]. split.
  - exact (proj1 (paths_are_read_before_listening
                    sample_consoleLoggingConfig sample_BULL_BOARD_PATH
                    sample_getUrl sample_valid_credentials main_appConfig
                    config_without_dsn) "sentry.dsn" Hthrows).
  - destruct (sample_started main_appConfig Environment.production)
      as [e|app] eqn:Hrun; [discriminate Hrun|].
    destruct (proj2 (paths_are_read_before_listening
                       sample_consoleLoggingConfig sample_BULL_BOARD_PATH
                       sample_getUrl sample_valid_credentials main_appConfig
                       (sample_config Environment.production)) app Hrun)
      as [_ [options Hlisten]].
    exists app, options. split; [reflexivity | exact Hlisten].
Defined.

(** A main server in production: the DSN and environment handed to the
    SDK. *)
Lemma error_monitoring_is_wired_witness :
  config_complete main_appConfig (sample_config Environment.production)
  /\ exists app,
       sample_started main_appConfig Environment.production = inr app
       /\ sentry_inits app
          = [ {| dsn := VString "https://key@sentry.example/1";
                 tracesSampleRate := 1;
                 environment := VString "production" |} ]
       /\ globalInterceptors app
          = [ClassSerializerInterceptor; SentryInterceptor].
Proof.
  split; [apply sample_config_complete|].
  destruct (error_monitoring_is_wired sample_consoleLoggingConfig
              sample_BULL_BOARD_PATH sample_getUrl sample_valid_credentials
              main_appConfig (sample_config Environment.production)
              (sample_config_complete _ _))
    as (app & sentryDsn & env & Hrun & Hdsn & Henv & Hinit & Hint).
  exists app. split; [exact Hrun|].
  vm_compute in Hdsn. injection Hdsn as <-.
  vm_compute in Henv. injection Henv as <-.
  split; assumption.
Defined.

(** A worker starts without [app.port]: deleting it changes nothing. *)
Lemma bootstrap_reads_only_its_paths_witness :
  (forall propertyPath, In propertyPath (read_order worker_appConfig) ->
     sample_config Environment.production !! propertyPath
     = delete "app.port" (sample_config Environment.production)
       !! propertyPath)
  /\ is_missing (delete "app.port" (sample_config Environment.production))
       "app.port" = true
  /\ started sample_consoleLoggingConfig sample_BULL_BOARD_PATH sample_getUrl
       sample_valid_credentials worker_appConfig
       (delete "app.port" (sample_config Environment.production))
     = sample_started worker_appConfig Environment.production.
Proof.
  assert (Hagree : forall propertyPath,
             In propertyPath (read_order worker_appConfig) ->
             sample_config Environment.production !! propertyPath
             = delete "app.port" (sample_config Environment.production)
               !! propertyPath).
  { intros k [<-|[<-|[<-|[<-|[<-|[]]]]]]; reflexivity. }
  split; [exact Hagree|]. split; [reflexivity|].
  symmetry.
  exact (proj1 (bootstrap_reads_only_its_paths sample_consoleLoggingConfig
                  sample_BULL_BOARD_PATH sample_getUrl
                  sample_valid_credentials worker_appConfig _ _ Hagree)).
Defined.

(** A main server in production: the hook is in place before it listens. *)
Lemma registrations_precede_listen_witness :
  config_complete main_appConfig (sample_config Environment.production)
  /\ exists app before options,
       sample_started main_appConfig Environment.production = inr app
       /\ listening app = listening before ++ [options]
       /\ listening before = []
       /\ length (onRequest_hooks before) = 1%nat.
Proof.
  split; [apply sample_config_complete|].
  destruct (registrations_precede_listen sample_consoleLoggingConfig
              sample_BULL_BOARD_PATH sample_getUrl sample_valid_credentials
              main_appConfig (sample_config Environment.production)
              (sample_config_complete _ _))
    as (app & before & options & colour & Hrun & Happ & Hnone & Hhook).
  exists app, before, options. split; [exact Hrun|].
  split; [|split; [exact Hnone | now rewrite Hhook]].
  rewrite Happ. unfold listening. rewrite omap_app. reflexivity.
Defined.

(** A main server in production: secret, prefix and versioning. *)
Lemma http_surface_witness :
  config_complete main_appConfig (sample_config Environment.production)
  /\ exists app,
       sample_started main_appConfig Environment.production = inr app
       /\ cookie_secrets app = [VString "s3cret"]
       /\ global_prefixes app = ["api"]
       /\ versionings app = [VersioningType_URI].
Proof.
  split; [apply sample_config_complete|].
  destruct (http_surface sample_consoleLoggingConfig
              sample_BULL_BOARD_PATH sample_getUrl sample_valid_credentials
              main_appConfig (sample_config Environment.production)
              (sample_config_complete _ _))
    as (app & secret & Hrun & Hsecret & Hcookie & Hprefix & Hversion & _).
  exists app. split; [exact Hrun|].
  vm_compute in Hsecret. injection Hsecret as <-.
  repeat split; assumption.
Defined.

(** An application configuration that says local still has graceful
    shutdown set up when the configuration service says production. *)
Lemma appConfig_mode_only_shapes_the_adapter_witness :
  isWorker local_appConfig = isWorker main_appConfig
  /\ tail (calls_made sample_consoleLoggingConfig sample_BULL_BOARD_PATH
             sample_getUrl sample_valid_credentials local_appConfig
             (sample_config Environment.production))
     = tail (calls_made sample_consoleLoggingConfig sample_BULL_BOARD_PATH
               sample_getUrl sample_valid_credentials main_appConfig
               (sample_config Environment.production))
  /\ existsb is_setupGracefulShutdown
       (calls_made sample_consoleLoggingConfig sample_BULL_BOARD_PATH
          sample_getUrl sample_valid_credentials local_appConfig
          (sample_config Environment.production)) = true.
Proof.
  split; [reflexivity|]. split; [|reflexivity].
  exact (appConfig_mode_only_shapes_the_adapter sample_consoleLoggingConfig
           sample_BULL_BOARD_PATH sample_getUrl sample_valid_credentials
           local_appConfig main_appConfig
           (sample_config Environment.production) eq_refl).
Defined.
